(** * PSDownsampler: the pixel-shader mip-chain downsampler (DX12 sample)

    A shallow embedding of [sample/src/DX12/PSDownsampler.h].  The header
    gives the class layout, the capacity of the per-level pass array and
    the bodies of the two inline accessors
    [GetTexture] and [GetTextureView].  The bodies of the other member
    functions are not part of the header; where a statement needs them they
    are modelled from the specification and marked as such. *)

From Stdlib Require Import ZArith QArith Lia Bool.
From stdpp Require Import base list.

Local Open Scope Z_scope.

(** ** Constants *)

(** [#define PS_MAX_MIP_LEVELS 12] *)
Definition PS_MAX_MIP_LEVELS : Z := 12.

(** ** Pointers and descriptors *)

(** The address of a [PSDownsampler] object. *)
Definition ObjAddr := positive.
Bind Scope positive_scope with ObjAddr.

(** [Texture *]: null, a texture owned by the caller, or the address of the
    member [m_result] of the component at [this]. *)
Inductive TexturePtr : Type :=
| tex_nullptr
| tex_extern (a : positive)
| tex_member_result (this : ObjAddr).

(** A mip level of a texture: what a view exposes. *)
Record Subresource : Type := mkSubresource {
  sub_texture : TexturePtr;
  sub_mip : nat
}.

(** [CBV_SRV_UAV]: a shader-resource descriptor, unset or bound. *)
Inductive CBV_SRV_UAV : Type :=
| SRV_unset
| SRV_of (target : Subresource).

(** [RTV]: a render-target descriptor, unset or bound. *)
Inductive RTV : Type :=
| RTV_unset
| RTV_of (target : Subresource).

Definition srv_target (v : CBV_SRV_UAV) : option Subresource :=
  match v with SRV_unset => None | SRV_of t => Some t end.

Definition rtv_target (v : RTV) : option Subresource :=
  match v with RTV_unset => None | RTV_of t => Some t end.

(** [struct Pass { RTV m_RTV; //dest   CBV_SRV_UAV m_SRV; //src }] *)
Record Pass : Type := mkPass {
  m_RTV : RTV;
  m_SRV : CBV_SRV_UAV
}.

(** Modelled from the spec: [Texture] ([Base/Texture.h] is not among the
    sources), reduced to what the mip chain image needs: whether it is
    allocated, the size of level 0 and the number of levels. *)
Record Texture : Type := mkTexture {
  tex_allocated : bool;
  tex_width : Z;
  tex_height : Z;
  tex_mipCount : Z
}.

(** ** The class *)

(** The data members of [class PSDownsampler], in declaration order.
    Pointers to collaborators are [option]s ([None] is [nullptr]);
    [m_mip] is the array [Pass m_mip[PS_MAX_MIP_LEVELS]]. *)
Record PSDownsampler : Type := mkPSDownsampler {
  m_pDevice : option positive;
  m_outFormat : Z;
  m_pInput : TexturePtr;
  m_result : Texture;
  m_mip : list Pass;
  m_pStaticBufferPool : option positive;
  m_pResourceViewHeaps : option positive;
  m_pConstantBufferRing : option positive;
  m_Width : Z;
  m_Height : Z;
  m_mipCount : Z;
  m_downscale : bool
}.

(** The array member has exactly [PS_MAX_MIP_LEVELS] slots. *)
Definition array_ok (s : PSDownsampler) : Prop :=
  length (m_mip s) = Z.to_nat PS_MAX_MIP_LEVELS.

(** ** Results of a call *)

(** The error kinds of the specification. *)
Inductive Error : Type :=
| InvalidDimensions
| ResourceExhausted
| PreconditionViolation.

(** A call returns a value, signals an error, or has no defined behaviour
    (an access outside an array). *)
Inductive Outcome (A : Type) : Type :=
| Returned (a : A)
| Raised (e : Error)
| Undefined.

Arguments Returned {A} a.
Arguments Raised {A} e.
Arguments Undefined {A}.

(** Reading [a[i]] for a C array [a] and an [int] index. *)
Definition array_read {A : Type} (a : list A) (i : Z) : Outcome A :=
  if i <? 0 then Undefined
  else match a !! Z.to_nat i with
       | Some x => Returned x
       | None => Undefined
       end.

(** ** The inline accessors *)

(** [Texture *GetTexture() { return &m_result; }] *)
Definition GetTexture (this : ObjAddr) (s : PSDownsampler) : Outcome TexturePtr :=
  Returned (tex_member_result this).

(** [CBV_SRV_UAV GetTextureView(int i) { return m_mip[i].m_SRV; }] *)
Definition GetTextureView (s : PSDownsampler) (i : Z) : Outcome CBV_SRV_UAV :=
  match array_read (m_mip s) i with
  | Returned p => Returned (m_SRV p)
  | Raised e => Raised e
  | Undefined => Undefined
  end.

(** ** Collaborators and life cycle *)

(** Modelled from the spec: the life-cycle states of section 4.4.  The
    header has no field for them; the state is kept beside the object. *)
Inductive Lifecycle : Type :=
| Uninitialized
| DeviceReady
| SizedReady
| Destroyed.

(** Modelled from the spec: what a call can read and change.  Besides the
    object itself these are the two shared allocators it only points to
    ([ResourceViewHeaps], [DynamicBufferRing], neither among the sources),
    each reduced to the number of entries it can still hand out. *)
Record World : Type := mkWorld {
  comp : PSDownsampler;
  phase : Lifecycle;
  heap_free : nat;
  ring_free : nat
}.

(** The object before [OnCreate]: [m_pDevice = nullptr] is the one default
    member initialiser of the header; the other members, which the header
    leaves without one, stand here with zero or unset contents. *)
Definition fresh_object : PSDownsampler :=
  {| m_pDevice := None;
     m_outFormat := 0;
     m_pInput := tex_nullptr;
     m_result := mkTexture false 0 0 0;
     m_mip := replicate (Z.to_nat PS_MAX_MIP_LEVELS) (mkPass RTV_unset SRV_unset);
     m_pStaticBufferPool := None;
     m_pResourceViewHeaps := None;
     m_pConstantBufferRing := None;
     m_Width := 0;
     m_Height := 0;
     m_mipCount := 0;
     m_downscale := false |}.

Definition fresh_world (views params : nat) : World :=
  mkWorld fresh_object Uninitialized views params.

(** ** Chain geometry *)

(** Modelled from the spec: the step from one level to the next of the pass
    sequencer (section 4.3), [floor(x/2)] but never below 1. *)
Definition halve (x : Z) : Z := Z.max 1 (x / 2).

(** Modelled from the spec: the extent of level [k] of a chain whose level 0
    has extent [x] (section 8: a 512 wide chain of nine levels measures 512,
    256, ..., 2); each further level is [halve] of the one above. *)
Fixpoint level_extent (x : Z) (k : nat) : Z :=
  match k with
  | O => x
  | S j => halve (level_extent x j)
  end.

(** Modelled from the spec: [chain.width(k)] and [chain.height(k)] of the
    sequencer. *)
Definition chain_width (t : Texture) (k : nat) : Z := level_extent (tex_width t) k.
Definition chain_height (t : Texture) (k : nat) : Z := level_extent (tex_height t) k.

(** ** Resource layout *)

(** Modelled from the spec: the view pair of level [k] (section 4.1).  The
    write view exposes level [k] of the chain; the read view exposes the
    caller's input for level 0 and level [k-1] of the chain otherwise. *)
Definition pass_binding (this : ObjAddr) (pInput : TexturePtr) (k : nat) : Pass :=
  {| m_RTV := RTV_of (mkSubresource (tex_member_result this) k);
     m_SRV := SRV_of match k with
                     | O => mkSubresource pInput 0
                     | S j => mkSubresource (tex_member_result this) j
                     end |}.

(** Modelled from the spec: the loop that fills slots [k .. k+n-1] of the
    pass array. *)
Fixpoint create_views (this : ObjAddr) (pInput : TexturePtr) (k n : nat)
    (a : list Pass) : list Pass :=
  match n with
  | O => a
  | S n' => create_views this pInput (S k) n' (<[k := pass_binding this pInput k]> a)
  end.

(** Modelled from the spec: [OnCreate], the device-level setup.  It keeps the
    collaborators and the output format and builds the pipeline. *)
Definition OnCreate (pDevice pResourceViewHeaps pConstantBufferRing
    pStaticBufferPool : positive) (outFormat : Z) (w : World) : Outcome unit * World :=
  match phase w with
  | Uninitialized =>
      let s := comp w in
      (Returned tt,
       {| comp := {| m_pDevice := Some pDevice;
                     m_outFormat := outFormat;
                     m_pInput := m_pInput s;
                     m_result := m_result s;
                     m_mip := m_mip s;
                     m_pStaticBufferPool := Some pStaticBufferPool;
                     m_pResourceViewHeaps := Some pResourceViewHeaps;
                     m_pConstantBufferRing := Some pConstantBufferRing;
                     m_Width := m_Width s;
                     m_Height := m_Height s;
                     m_mipCount := m_mipCount s;
                     m_downscale := true |};
          phase := DeviceReady;
          heap_free := heap_free w;
          ring_free := ring_free w |})
  | _ => (Raised PreconditionViolation, w)
  end.

(** Modelled from the spec: [OnCreateWindowSizeDependentResources], the
    resource layout of section 4.1.  Zero sizes and a level count above the
    capacity are refused first; then the view allocator is asked for one
    write view and one read view per level; then the image and the views
    are set up. *)
Definition OnCreateWindowSizeDependentResources (this : ObjAddr)
    (Width Height : Z) (pInput : TexturePtr) (mips : Z) (w : World)
    : Outcome unit * World :=
  match phase w with
  | DeviceReady =>
      if (Width =? 0) || (Height =? 0) || (PS_MAX_MIP_LEVELS <? mips)
      then (Raised InvalidDimensions, w)
      else
        let n := Z.to_nat mips in
        if (heap_free w <? 2 * n)%nat
        then (Raised ResourceExhausted, w)
        else
          let s := comp w in
          (Returned tt,
           {| comp := {| m_pDevice := m_pDevice s;
                         m_outFormat := m_outFormat s;
                         m_pInput := pInput;
                         m_result := mkTexture true Width Height mips;
                         m_mip := create_views this pInput 0 n (m_mip s);
                         m_pStaticBufferPool := m_pStaticBufferPool s;
                         m_pResourceViewHeaps := m_pResourceViewHeaps s;
                         m_pConstantBufferRing := m_pConstantBufferRing s;
                         m_Width := Width;
                         m_Height := Height;
                         m_mipCount := mips;
                         m_downscale := m_downscale s |};
              phase := SizedReady;
              heap_free := (heap_free w - 2 * n)%nat;
              ring_free := ring_free w |})
  | _ => (Raised PreconditionViolation, w)
  end.

(** ** Pass sequencer *)

(** [struct cbDownscale { float outWidth, outHeight; float invWidth,
    invHeight; }], with exact rationals in place of the floats. *)
Record cbDownscale : Type := mkcbDownscale {
  outWidth : Q;
  outHeight : Q;
  invWidth : Q;
  invHeight : Q
}.

(** Modelled from the spec: the parameter block of a pass, the output
    extents and their reciprocals (section 3). *)
Definition downscale_constants (width height : Z) : cbDownscale :=
  {| outWidth := inject_Z width;
     outHeight := inject_Z height;
     invWidth := Qinv (inject_Z width);
     invHeight := Qinv (inject_Z height) |}.

(** Modelled from the spec: one full-screen draw as it stands on the command
    list ([ID3D12GraphicsCommandList] is not among the sources): its level,
    the views bound as shader input and as render target, the viewport and
    the parameter block. *)
Record RecordedPass : Type := mkRecordedPass {
  rec_level : nat;
  rec_source : CBV_SRV_UAV;
  rec_target : RTV;
  rec_viewport : Z * Z;
  rec_constants : cbDownscale
}.

(** Modelled from the spec: the loop of section 4.3 over levels
    [k .. k+n-1].  Per level it takes the view pair of slot [k], takes a
    parameter block from the ring, binds the views, sets the viewport to
    the extent of the level and appends the draw to the command list. *)
Fixpoint draw_levels (s : PSDownsampler) (k n : nat) (cl : list RecordedPass)
    (ring : nat) : Outcome unit * list RecordedPass * nat :=
  match n with
  | O => (Returned tt, cl, ring)
  | S n' =>
      match m_mip s !! k with
      | None => (Undefined, cl, ring)
      | Some p =>
          let width := chain_width (m_result s) k in
          let height := chain_height (m_result s) k in
          match ring with
          | O => (Raised ResourceExhausted, cl, ring)
          | S ring' =>
              match m_SRV p, m_RTV p with
              | SRV_of _, RTV_of _ =>
                  draw_levels s (S k) n'
                    (cl ++ [mkRecordedPass k (m_SRV p) (m_RTV p) (width, height)
                              (downscale_constants width height)])
                    ring'
              | _, _ => (Raised PreconditionViolation, cl, ring')
              end
          end
      end
  end.

(** Modelled from the spec: [Draw], which records the chain of the stored
    level count onto the command list it is given. *)
Definition Draw (cl : list RecordedPass) (w : World)
    : Outcome unit * list RecordedPass * World :=
  match phase w with
  | SizedReady =>
      let '(r, cl', ring') :=
        draw_levels (comp w) 0 (Z.to_nat (m_mipCount (comp w))) cl (ring_free w) in
      (r, cl', mkWorld (comp w) (phase w) (heap_free w) ring')
  | _ => (Raised PreconditionViolation, cl, w)
  end.

(** ** Properties stated over the operations *)

(** The chain of [mips] levels created for [Width] x [Height] has, at every
    level, the extents of the closed form; they are never below 1, and an
    extent that has reached 1 stays 1 at every deeper level. *)
Definition chain_geometry (Width Height mips : Z) (t : Texture) : Prop :=
  forall k : nat, Z.of_nat k < mips ->
    chain_width t k = Z.max 1 (Width / 2 ^ Z.of_nat k) /\
    chain_height t k = Z.max 1 (Height / 2 ^ Z.of_nat k) /\
    1 <= chain_width t k /\
    1 <= chain_height t k /\
    (forall j : nat, (k <= j)%nat -> chain_width t k = 1 -> chain_width t j = 1) /\
    (forall j : nat, (k <= j)%nat -> chain_height t k = 1 -> chain_height t j = 1).

(** What level [k] of the chain of the object at [this] is, as a view target. *)
Definition chain_level (this : ObjAddr) (k : nat) : Subresource :=
  mkSubresource (tex_member_result this) k.

(** Modelled from the spec: the pass array of the object at [this] holds,
    in every slot below the stored level count, the view pair the resource
    layout gives that level for the stored input. *)
Definition holds_chain (this : ObjAddr) (s : PSDownsampler) : Prop :=
  forall k : nat, Z.of_nat k < m_mipCount s ->
    m_mip s !! k = Some (pass_binding this (m_pInput s) k).

(** What [GetTextureView] returns at an index below the level count of an
    object that holds the chain: the view of the caller's input at index 0,
    the view of level [i - 1] of the chain above it. *)
Definition sampled_by_pass (this : ObjAddr) (s : PSDownsampler) (i : Z)
    : CBV_SRV_UAV :=
  SRV_of (if decide (i = 0) then mkSubresource (m_pInput s) 0
          else chain_level this (Z.to_nat (i - 1))).

(** [passes] is the chain of [n] levels in level order: pass [k] renders
    into level [k]; pass 0 samples the caller's input, and every later pass
    samples what the pass before it rendered into. *)
Definition records_chain (this : ObjAddr) (pInput : TexturePtr) (n : nat)
    (passes : list RecordedPass) : Prop :=
  length passes = n /\
  (forall k : nat, (k < n)%nat ->
     exists p, passes !! k = Some p /\ rec_level p = k /\
               rtv_target (rec_target p) = Some (chain_level this k)) /\
  (forall p, passes !! 0%nat = Some p ->
     srv_target (rec_source p) = Some (mkSubresource pInput 0)) /\
  (forall (k : nat) p q, passes !! k = Some p -> passes !! S k = Some q ->
     srv_target (rec_source q) = rtv_target (rec_target p)).

(** The pass recorded for level [k] from the view pair [p]. *)
Definition pass_of (t : Texture) (k : nat) (p : Pass) : RecordedPass :=
  mkRecordedPass k (m_SRV p) (m_RTV p) (chain_width t k, chain_height t k)
    (downscale_constants (chain_width t k) (chain_height t k)).

(** ** Sample objects *)

(** A device-ready component whose allocators hold 64 views and 16
    parameter blocks. *)
Definition device_world : World :=
  snd (OnCreate 1 2 3 4 28 (fresh_world 64 16)).

(** The same component sized for a 512 x 512 input and nine levels. *)
Definition sized_world : World :=
  snd (OnCreateWindowSizeDependentResources 1 512 512 (tex_extern 7) 9 device_world).

(** An object at address 1 with a level count of two whose pass array still
    holds, beyond slot 1, the views of an earlier six-level chain. *)
Definition two_level_object : PSDownsampler :=
  {| m_pDevice := Some 1%positive;
     m_outFormat := 28;
     m_pInput := tex_extern 7;
     m_result := mkTexture true 4 4 2;
     m_mip :=
       [mkPass (RTV_of (mkSubresource (tex_member_result 1) 0))
               (SRV_of (mkSubresource (tex_extern 7) 0));
        mkPass (RTV_of (mkSubresource (tex_member_result 1) 1))
               (SRV_of (mkSubresource (tex_member_result 1) 0));
        mkPass (RTV_of (mkSubresource (tex_member_result 1) 2))
               (SRV_of (mkSubresource (tex_member_result 1) 1));
        mkPass (RTV_of (mkSubresource (tex_member_result 1) 3))
               (SRV_of (mkSubresource (tex_member_result 1) 2));
        mkPass (RTV_of (mkSubresource (tex_member_result 1) 4))
               (SRV_of (mkSubresource (tex_member_result 1) 3));
        mkPass (RTV_of (mkSubresource (tex_member_result 1) 5))
               (SRV_of (mkSubresource (tex_member_result 1) 4));
        mkPass RTV_unset SRV_unset; mkPass RTV_unset SRV_unset;
        mkPass RTV_unset SRV_unset; mkPass RTV_unset SRV_unset;
        mkPass RTV_unset SRV_unset; mkPass RTV_unset SRV_unset];
     m_pStaticBufferPool := Some 4%positive;
     m_pResourceViewHeaps := Some 2%positive;
     m_pConstantBufferRing := Some 3%positive;
     m_Width := 4;
     m_Height := 4;
     m_mipCount := 2;
     m_downscale := true |}.

(** [sized_world] when the ring has a single parameter block left. *)
Definition starved_world : World :=
  mkWorld (comp sized_world) (phase sized_world) (heap_free sized_world) 1.

(** The object [s] with its pass array replaced by [a], every other member
    kept. *)
Definition with_mip (s : PSDownsampler) (a : list Pass) : PSDownsampler :=
  {| m_pDevice := m_pDevice s;
     m_outFormat := m_outFormat s;
     m_pInput := m_pInput s;
     m_result := m_result s;
     m_mip := a;
     m_pStaticBufferPool := m_pStaticBufferPool s;
     m_pResourceViewHeaps := m_pResourceViewHeaps s;
     m_pConstantBufferRing := m_pConstantBufferRing s;
     m_Width := m_Width s;
     m_Height := m_Height s;
     m_mipCount := m_mipCount s;
     m_downscale := m_downscale s |}.

(** [two_level_object] with the render-target view of slot 3 withdrawn and
    its shader-resource view kept. *)
Definition repainted_object : PSDownsampler :=
  with_mip two_level_object
    (<[3%nat := mkPass RTV_unset (SRV_of (mkSubresource (tex_member_result 1) 2))]>
       (m_mip two_level_object)).

(** A pass whose source is level 0 of another texture of the caller. *)
Definition rebound_pass : Pass :=
  mkPass RTV_unset (SRV_of (mkSubresource (tex_extern 9) 0)).

(** * Proofs *)

(** ** Reading the pass array *)

Section ArrayRead.
Context {A : Type}.
Implicit Types (a : list A) (i : Z).

Lemma array_read_in_range a i :
  0 <= i < Z.of_nat (length a) ->
  exists x, a !! Z.to_nat i = Some x /\ array_read a i = Returned x.
Proof.
  intros Hi. unfold array_read.
  destruct (Z.ltb_spec i 0) as [Hneg | _]; [lia |].
  destruct (lookup_lt_is_Some_2 a (Z.to_nat i)) as [x Hx]; [lia |].
  exists x. rewrite Hx. split; reflexivity.
Qed.

Lemma array_read_out_of_range a i :
  ~ 0 <= i < Z.of_nat (length a) -> array_read a i = Undefined.
Proof.
  intros Hi. unfold array_read.
  destruct (Z.ltb_spec i 0) as [Hneg | Hpos]; [reflexivity |].
  rewrite (lookup_ge_None_2 a (Z.to_nat i)); [reflexivity | lia].
Qed.

Lemma array_read_never_raises a i (e : Error) : array_read a i <> Raised e.
Proof.
  unfold array_read.
  destruct (i <? 0); [discriminate |].
  destruct (a !! Z.to_nat i); discriminate.
Qed.

End ArrayRead.

(** ** The inline accessors *)

(** C9.  [GetTexture] returns the address of the member [m_result] of the
    object it is called on, whatever the fields of that object hold: in
    every state of the object (before any sizing call, between sizing and
    release, after release) the call returns, the pointer is the same, and
    it is not null; and whatever an operation does to the fields, the
    pointer returned afterwards is the one returned before. *)
Theorem GetTexture_fixed_handle (this : ObjAddr) (s s' : PSDownsampler) :
  GetTexture this s = Returned (tex_member_result this) /\
  GetTexture this s' = GetTexture this s /\
  (forall op : PSDownsampler -> PSDownsampler,
     GetTexture this (op s) = GetTexture this s) /\
  GetTexture this s <> Returned tex_nullptr /\
  GetTexture this s <> Undefined /\
  (forall e : Error, GetTexture this s <> Raised e).
Proof.
  unfold GetTexture. repeat split; try discriminate.
Qed.

Lemma GetTextureView_at_slot (s : PSDownsampler) (n : nat) :
  GetTextureView s (Z.of_nat n)
    = match m_mip s !! n with
      | Some p => Returned (m_SRV p)
      | None => Undefined
      end.
Proof.
  unfold GetTextureView, array_read.
  destruct (Z.ltb_spec (Z.of_nat n) 0) as [Hneg | _]; [lia |].
  rewrite Nat2Z.id. destruct (m_mip s !! n); reflexivity.
Qed.

(** C7 (amended).  On an object whose pass array holds the chain,
    [GetTextureView] at an index below the level count returns the view
    pass [i] samples: the caller's input at index 0, level [i - 1] of the
    chain above it; that is the view of level [i] only at index 0 of an
    object whose input is its own result image.  The level count is not
    consulted and no index makes the call signal an error: every index
    within the array, [0 <= i < PS_MAX_MIP_LEVELS], returns the [m_SRV]
    that slot holds, and an index outside the array has no defined
    behaviour. *)
Theorem GetTextureView_unchecked (this : ObjAddr) (s : PSDownsampler) (i : Z) :
  array_ok s ->
  holds_chain this s ->
  (0 <= i < m_mipCount s ->
     GetTextureView s i = Returned (sampled_by_pass this s i) /\
     (sampled_by_pass this s i = SRV_of (chain_level this (Z.to_nat i)) ->
      i = 0 /\ m_pInput s = tex_member_result this)) /\
  (0 <= i < PS_MAX_MIP_LEVELS ->
     exists p : Pass,
       m_mip s !! Z.to_nat i = Some p /\ GetTextureView s i = Returned (m_SRV p)) /\
  (~ 0 <= i < PS_MAX_MIP_LEVELS -> GetTextureView s i = Undefined) /\
  (forall e : Error, GetTextureView s i <> Raised e).
Proof.
  intros Harr Hchain. unfold array_ok in Harr.
  split; [| unfold GetTextureView; repeat split].
  - intros Hi.
    assert (Hret : GetTextureView s i = Returned (sampled_by_pass this s i)).
    { rewrite <- (Z2Nat.id i) at 1 by lia.
      rewrite GetTextureView_at_slot, (Hchain (Z.to_nat i)) by lia.
      unfold sampled_by_pass, pass_binding, chain_level. cbn [m_SRV].
      destruct (decide (i = 0)) as [-> | Hne]; [reflexivity |].
      destruct (Z.to_nat i) as [| j] eqn:Hj; [lia |].
      replace (Z.to_nat (i - 1)) with j by lia. reflexivity. }
    split; [exact Hret |].
    unfold sampled_by_pass, chain_level.
    destruct (decide (i = 0)) as [-> | Hne]; intros Heq.
    + injection Heq as Hptr. split; [reflexivity | exact Hptr].
    + injection Heq as Hmip. lia.
  - intros Hi.
    destruct (array_read_in_range (m_mip s) i) as (p & Hp & Hread); [lia |].
    exists p. rewrite Hread. split; [exact Hp | reflexivity].
  - intros Hi. rewrite array_read_out_of_range; [reflexivity | lia].
  - intros e. pose proof (array_read_never_raises (m_mip s) i) as Hnever.
    destruct (array_read (m_mip s) i); [discriminate | | discriminate].
    exfalso. eapply Hnever. reflexivity.
Qed.

Lemma GetTextureView_unchecked_witness :
  (0 <= 1 < m_mipCount two_level_object ->
     GetTextureView two_level_object 1
       = Returned (sampled_by_pass 1 two_level_object 1) /\
     (sampled_by_pass 1 two_level_object 1 = SRV_of (chain_level 1 (Z.to_nat 1)) ->
      1 = 0 /\ m_pInput two_level_object = tex_member_result 1)) /\
  (0 <= 1 < PS_MAX_MIP_LEVELS ->
     exists p : Pass,
       m_mip two_level_object !! Z.to_nat 1 = Some p /\
       GetTextureView two_level_object 1 = Returned (m_SRV p)) /\
  (~ 0 <= 1 < PS_MAX_MIP_LEVELS -> GetTextureView two_level_object 1 = Undefined) /\
  (forall e : Error, GetTextureView two_level_object 1 <> Raised e).
Proof.
  apply (GetTextureView_unchecked 1 two_level_object 1).
  - reflexivity.
  - intros k Hk. simpl in Hk.
    destruct k as [| [| k]]; [reflexivity | reflexivity | lia].
Defined.

(** C7, as first stated, fails in both halves.  In range: on the component
    sized for nine levels, index 0 returns the view of the caller's input
    and index 1 the view of level 0, not the views of levels 0 and 1.  Out
    of range: on the same component index 9 returns the unset descriptor
    of slot 9, and with a level count of two index 5 returns the view left
    in slot 5; neither call signals anything. *)
Lemma GetTextureView_source_view_unchecked :
  (m_mipCount (comp sized_world) = 9 /\
   GetTextureView (comp sized_world) 0
     = Returned (SRV_of (mkSubresource (tex_extern 7) 0)) /\
   GetTextureView (comp sized_world) 0 <> Returned (SRV_of (chain_level 1 0)) /\
   GetTextureView (comp sized_world) 1 = Returned (SRV_of (chain_level 1 0)) /\
   GetTextureView (comp sized_world) 1 <> Returned (SRV_of (chain_level 1 1))) /\
  (~ 0 <= 9 < m_mipCount (comp sized_world) /\
   GetTextureView (comp sized_world) 9 = Returned SRV_unset /\
   GetTextureView (comp sized_world) 9 <> Raised PreconditionViolation) /\
  (m_mipCount two_level_object = 2 /\
   ~ 0 <= 5 < m_mipCount two_level_object /\
   GetTextureView two_level_object 5
     = Returned (SRV_of (mkSubresource (tex_member_result 1) 4)) /\
   GetTextureView two_level_object 5 <> Raised PreconditionViolation).
Proof.
  repeat split; try reflexivity; try discriminate; simpl; lia.
Qed.

(** ** Arithmetic of the halving chain *)

Create HintDb extent.

Lemma halve_ge_1 (x : Z) : 1 <= halve x.
Proof. unfold halve. lia. Qed.

Lemma halve_one : halve 1 = 1.
Proof. reflexivity. Qed.

Lemma level_extent_ge_1 (x : Z) (k : nat) : 1 <= x -> 1 <= level_extent x k.
Proof.
  intros Hx. destruct k as [| j]; simpl; [exact Hx | apply halve_ge_1].
Qed.

Lemma level_extent_closed_form (x : Z) (k : nat) :
  1 <= x -> level_extent x k = Z.max 1 (x / 2 ^ Z.of_nat k).
Proof.
  intros Hx. induction k as [| j IH].
  - simpl. rewrite Z.div_1_r. lia.
  - cbn [level_extent]. rewrite IH. unfold halve.
    replace (2 ^ Z.of_nat (S j)) with (2 ^ Z.of_nat j * 2)
      by (rewrite Nat2Z.inj_succ, Z.pow_succ_r by lia; lia).
    assert (Hpow : 0 < 2 ^ Z.of_nat j) by (apply Z.pow_pos_nonneg; lia).
    rewrite <- Z.div_div by lia.
    assert (Hq : 0 <= x / 2 ^ Z.of_nat j) by (apply Z.div_pos; lia).
    destruct (Z.eq_dec (x / 2 ^ Z.of_nat j) 0) as [Hz | Hnz].
    + rewrite Hz. reflexivity.
    + rewrite (Z.max_r 1 (x / 2 ^ Z.of_nat j)) by lia. reflexivity.
Qed.

Lemma level_extent_stays_1 (x : Z) (k j : nat) :
  (k <= j)%nat -> level_extent x k = 1 -> level_extent x j = 1.
Proof.
  intros Hle H1. induction Hle as [| m _ IH].
  - exact H1.
  - cbn [level_extent]. rewrite IH. apply halve_one.
Qed.

#[local] Hint Resolve halve_ge_1 level_extent_ge_1 level_extent_stays_1 : extent.

(** ** The view pairs and the loop over them *)

Section Layout.
Variables (this : ObjAddr) (pInput : TexturePtr).
Implicit Types (a : list Pass) (cl : list RecordedPass) (n k i ring : nat).

Lemma create_views_length n k a :
  length (create_views this pInput k n a) = length a.
Proof.
  revert k a. induction n as [| n IH]; intros k a; simpl.
  - reflexivity.
  - rewrite IH. apply length_insert.
Qed.

Lemma create_views_below n k i a :
  (i < k)%nat -> create_views this pInput k n a !! i = a !! i.
Proof.
  revert k a. induction n as [| n IH]; intros k a Hi; simpl.
  - reflexivity.
  - rewrite IH by lia. apply list_lookup_insert_ne. lia.
Qed.

Lemma create_views_lookup n k i a :
  (k <= i < k + n)%nat -> (k + n <= length a)%nat ->
  create_views this pInput k n a !! i = Some (pass_binding this pInput i).
Proof.
  revert k a. induction n as [| n IH]; intros k a Hi Hlen; simpl.
  - lia.
  - destruct (Nat.eq_dec i k) as [-> | Hne].
    + rewrite create_views_below by lia.
      apply list_lookup_insert_eq. lia.
    + apply IH; [lia | rewrite length_insert; lia].
Qed.

(** With the view pairs of levels [k .. k+n-1] in place and [n] parameter
    blocks in the ring, the loop returns and has appended those levels in
    order. *)
Lemma draw_levels_bound (s : PSDownsampler) n k cl ring :
  (forall i, (k <= i < k + n)%nat ->
     m_mip s !! i = Some (pass_binding this pInput i)) ->
  (n <= ring)%nat ->
  draw_levels s k n cl ring =
    (Returned tt,
     cl ++ ((fun i => pass_of (m_result s) i (pass_binding this pInput i)) <$> seq k n),
     (ring - n)%nat).
Proof.
  revert k cl ring. induction n as [| n IH]; intros k cl ring Hmip Hring.
  - simpl. rewrite app_nil_r, Nat.sub_0_r. reflexivity.
  - cbn [draw_levels]. rewrite (Hmip k) by lia.
    destruct ring as [| ring']; [lia |].
    cbn [pass_binding m_SRV m_RTV].
    rewrite IH; [| intros i Hi; apply Hmip; lia | lia].
    rewrite <- app_assoc. reflexivity.
Qed.

Lemma chain_passes_records_chain (t : Texture) n :
  records_chain this pInput n
    ((fun i => pass_of t i (pass_binding this pInput i)) <$> seq 0 n).
Proof.
  unfold records_chain. repeat split.
  - rewrite length_fmap. apply length_seq.
  - intros k Hk. eexists. rewrite list_lookup_fmap, lookup_seq_lt by exact Hk.
    simpl. repeat split.
  - intros p Hp. rewrite list_lookup_fmap in Hp.
    destruct (seq 0 n !! 0%nat) as [i |] eqn:Hi; [| discriminate].
    apply lookup_seq in Hi as [-> _]. simpl in Hp. injection Hp as <-. reflexivity.
  - intros k p q Hp Hq. rewrite list_lookup_fmap in Hp, Hq.
    destruct (seq 0 n !! k) as [i |] eqn:Hi; [| discriminate].
    destruct (seq 0 n !! S k) as [j |] eqn:Hj; [| discriminate].
    apply lookup_seq in Hi as [-> _]. apply lookup_seq in Hj as [-> _].
    simpl in Hp, Hq. injection Hp as <-. injection Hq as <-. reflexivity.
Qed.

(** What a successful sizing call found and what it leaves behind. *)
Lemma sized_inversion (Width Height mips : Z) (w w1 : World) :
  OnCreateWindowSizeDependentResources this Width Height pInput mips w
    = (Returned tt, w1) ->
  phase w = DeviceReady /\
  Width <> 0 /\ Height <> 0 /\ mips <= PS_MAX_MIP_LEVELS /\
  phase w1 = SizedReady /\
  ring_free w1 = ring_free w /\
  m_mipCount (comp w1) = mips /\
  m_result (comp w1) = mkTexture true Width Height mips /\
  m_mip (comp w1) = create_views this pInput 0 (Z.to_nat mips) (m_mip (comp w)).
Proof.
  unfold OnCreateWindowSizeDependentResources. intros H.
  destruct (phase w); try discriminate.
  destruct (Z.eqb_spec Width 0); [discriminate |].
  destruct (Z.eqb_spec Height 0); [discriminate |].
  destruct (Z.ltb_spec PS_MAX_MIP_LEVELS mips); [discriminate |].
  cbn [orb] in H.
  destruct (heap_free w <? 2 * Z.to_nat mips)%nat; [discriminate |].
  injection H as <-. cbn. repeat split; assumption.
Qed.

End Layout.

(** ** Sizing and drawing *)

(** A successful sizing call leaves an object that holds the chain. *)
Lemma sizing_holds_chain (this : ObjAddr) (Width Height : Z)
    (pInput : TexturePtr) (mips : Z) (w w1 : World) :
  array_ok (comp w) ->
  OnCreateWindowSizeDependentResources this Width Height pInput mips w
    = (Returned tt, w1) ->
  array_ok (comp w1) /\ holds_chain this (comp w1).
Proof.
  intros Harr Hsized.
  assert (Hin : m_pInput (comp w1) = pInput).
  { revert Hsized. unfold OnCreateWindowSizeDependentResources.
    destruct (phase w); try discriminate.
    destruct ((Width =? 0) || (Height =? 0) || (PS_MAX_MIP_LEVELS <? mips));
      [discriminate |].
    destruct (heap_free w <? 2 * Z.to_nat mips)%nat; [discriminate |].
    intros H. injection H as <-. reflexivity. }
  apply sized_inversion in Hsized
    as (_ & _ & _ & Hmax & _ & _ & Hcount & _ & Hmip).
  unfold array_ok, holds_chain in *. rewrite Hmip, Hcount, Hin. split.
  - rewrite create_views_length. exact Harr.
  - intros k Hk. apply create_views_lookup; [lia |].
    unfold PS_MAX_MIP_LEVELS in *. lia.
Qed.

(** C1.  For every width and height of at least 1 and every level count up
    to [PS_MAX_MIP_LEVELS], sizing a device-ready component (with views
    enough in the allocator) succeeds and stores the three arguments, and
    level [k] of the chain, for [0 <= k < mips], measures
    [max 1 (Width / 2^k)] by [max 1 (Height / 2^k)]; no extent is below 1,
    and an extent that has reached 1 is 1 at every deeper level. *)
Theorem chain_levels_halve_clamped (this : ObjAddr) (Width Height : Z)
    (pInput : TexturePtr) (mips : Z) (w : World) :
  phase w = DeviceReady ->
  (2 * Z.to_nat mips <= heap_free w)%nat ->
  1 <= Width -> 1 <= Height -> mips <= PS_MAX_MIP_LEVELS ->
  exists w1 : World,
    OnCreateWindowSizeDependentResources this Width Height pInput mips w
      = (Returned tt, w1) /\
    (m_Width (comp w1), m_Height (comp w1), m_mipCount (comp w1))
      = (Width, Height, mips) /\
    chain_geometry Width Height mips (m_result (comp w1)).
Proof.
  intros Hphase Hheap HW HH Hmips.
  unfold OnCreateWindowSizeDependentResources. rewrite Hphase.
  destruct (Z.eqb_spec Width 0); [lia |].
  destruct (Z.eqb_spec Height 0); [lia |].
  destruct (Z.ltb_spec PS_MAX_MIP_LEVELS mips); [lia |].
  cbn [orb].
  destruct (Nat.ltb_spec (heap_free w) (2 * Z.to_nat mips)); [lia |].
  eexists. split; [reflexivity |]. split; [reflexivity |].
  intros k Hk. unfold chain_width, chain_height.
  cbn [comp m_result tex_width tex_height].
  rewrite <- !level_extent_closed_form by assumption.
  repeat split; eauto with extent.
Qed.

Lemma chain_levels_halve_clamped_witness :
  exists w1 : World,
    OnCreateWindowSizeDependentResources 1 1025 1 (tex_extern 7) 4 device_world
      = (Returned tt, w1) /\
    (m_Width (comp w1), m_Height (comp w1), m_mipCount (comp w1)) = (1025, 1, 4) /\
    chain_geometry 1025 1 4 (m_result (comp w1)).
Proof.
  apply (chain_levels_halve_clamped 1 1025 1 (tex_extern 7) 4 device_world).
  - reflexivity.
  - vm_compute. lia.
  - lia.
  - lia.
  - unfold PS_MAX_MIP_LEVELS. lia.
Defined.

(** C2.  After a sizing call for [mips >= 1] levels, one [Draw] (with
    parameter blocks enough in the ring) returns and has appended exactly
    [mips] passes to the command list, in level order 0, 1, ...: pass [k]
    renders into level [k] of the chain, pass 0 samples the caller's input,
    and every later pass samples the level the pass before it rendered
    into. *)
Theorem Draw_records_chain (this : ObjAddr) (Width Height : Z)
    (pInput : TexturePtr) (mips : Z) (w w1 : World) (cl : list RecordedPass) :
  array_ok (comp w) ->
  OnCreateWindowSizeDependentResources this Width Height pInput mips w
    = (Returned tt, w1) ->
  1 <= mips ->
  (Z.to_nat mips <= ring_free w1)%nat ->
  exists (passes : list RecordedPass) (w2 : World),
    Draw cl w1 = (Returned tt, cl ++ passes, w2) /\
    records_chain this pInput (Z.to_nat mips) passes.
Proof.
  intros Harr Hsized Hmips Hring.
  apply sized_inversion in Hsized
    as (_ & _ & _ & Hmax & Hphase & _ & Hcount & Hres & Hmip).
  unfold Draw. rewrite Hphase, Hcount.
  rewrite (draw_levels_bound this pInput); [| | exact Hring].
  - eexists. eexists. split; [reflexivity |]. apply chain_passes_records_chain.
  - intros i Hi. rewrite Hmip. apply create_views_lookup; [lia |].
    unfold array_ok, PS_MAX_MIP_LEVELS in *. lia.
Qed.

Lemma Draw_records_chain_witness :
  exists (passes : list RecordedPass) (w2 : World),
    Draw [] sized_world = (Returned tt, [] ++ passes, w2) /\
    records_chain 1 (tex_extern 7) (Z.to_nat 9) passes.
Proof.
  apply (Draw_records_chain 1 512 512 (tex_extern 7) 9 device_world sized_world []).
  - reflexivity.
  - reflexivity.
  - lia.
  - vm_compute. lia.
Defined.

(** ** Where the accounts of the specification part *)

(** The data model words the extent of level [k] with a ceiling; the
    sequencer, which [level_extent] follows, rounds down.  The two part at
    width 3, level 1. *)
Example floor_and_ceiling_part :
  level_extent 3 1 = 1 /\ (3 + 2 ^ 1 - 1) / 2 ^ 1 = 2.
Proof. split; reflexivity. Qed.

(** The data model wants at least one level; the refusals of the resource
    layout do not include a level count below 1, so the sizing call
    modelled from them accepts zero levels. *)
Example sizing_accepts_zero_levels :
  exists w1 : World,
    OnCreateWindowSizeDependentResources 1 4 4 (tex_extern 7) 0 device_world
      = (Returned tt, w1) /\
    m_mipCount (comp w1) = 0.
Proof. eexists. split; reflexivity. Qed.

(** A failing [Draw] is wanted to have recorded nothing; the loop of the
    sequencer takes the parameter block of a level inside the loop, so
    with a single block left it has recorded level 0 when level 1 finds
    the ring empty. *)
Example Draw_stops_midway_when_ring_is_empty :
  exists (p : RecordedPass) (w2 : World),
    Draw [] starved_world = (Raised ResourceExhausted, [p], w2) /\
    rec_level p = 0%nat.
Proof. eexists. eexists. split; [vm_compute |]; reflexivity. Qed.

(** ** More on the inline accessors *)

(** X1.  Within the array, what [GetTextureView] lets a caller see of an
    object is the column of [m_SRV] of its pass array: two objects answer
    every index [0 <= i < PS_MAX_MIP_LEVELS] alike if and only if their
    arrays hold the same [m_SRV], slot by slot. *)
Theorem GetTextureView_observes_SRV_column (s s' : PSDownsampler) :
  array_ok s -> array_ok s' ->
  (forall i : Z, 0 <= i < PS_MAX_MIP_LEVELS ->
     GetTextureView s i = GetTextureView s' i) <->
  m_SRV <$> m_mip s = m_SRV <$> m_mip s'.
Proof.
  unfold array_ok. intros Harr Harr'. split.
  - intros Hsame. apply list_eq. intros n. rewrite !list_lookup_fmap.
    destruct (Nat.lt_ge_cases n (Z.to_nat PS_MAX_MIP_LEVELS)) as [Hn | Hn].
    + specialize (Hsame (Z.of_nat n) ltac:(lia)).
      rewrite !GetTextureView_at_slot in Hsame.
      destruct (m_mip s !! n), (m_mip s' !! n); simpl; congruence.
    + rewrite !lookup_ge_None_2 by lia. reflexivity.
  - intros Hcol i Hi. rewrite <- (Z2Nat.id i) by lia.
    rewrite !GetTextureView_at_slot.
    assert (Hn : (m_SRV <$> m_mip s) !! Z.to_nat i
                 = (m_SRV <$> m_mip s') !! Z.to_nat i) by (rewrite Hcol; reflexivity).
    rewrite !list_lookup_fmap in Hn.
    destruct (m_mip s !! Z.to_nat i), (m_mip s' !! Z.to_nat i);
      simpl in Hn; congruence.
Qed.

Lemma GetTextureView_observes_SRV_column_witness :
  (forall i : Z, 0 <= i < PS_MAX_MIP_LEVELS ->
     GetTextureView two_level_object i = GetTextureView repainted_object i) <->
  m_SRV <$> m_mip two_level_object = m_SRV <$> m_mip repainted_object.
Proof.
  apply (GetTextureView_observes_SRV_column two_level_object repainted_object);
    reflexivity.
Defined.

(** X2.  When slot [k] of the pass array is assigned the pass [p],
    [GetTextureView] returns the [m_SRV] of [p] at index [k] and answers
    every other index within the array as it did before. *)
Theorem GetTextureView_after_slot_write (s s' : PSDownsampler) (k : nat)
    (p : Pass) (i : Z) :
  array_ok s ->
  m_mip s' = <[k := p]> (m_mip s) ->
  Z.of_nat k < PS_MAX_MIP_LEVELS ->
  0 <= i < PS_MAX_MIP_LEVELS ->
  GetTextureView s' i =
    if decide (i = Z.of_nat k) then Returned (m_SRV p) else GetTextureView s i.
Proof.
  unfold array_ok. intros Harr Hwrite Hk Hi.
  destruct (decide (i = Z.of_nat k)) as [-> | Hne].
  - rewrite GetTextureView_at_slot, Hwrite, list_lookup_insert_eq by lia.
    reflexivity.
  - rewrite <- (Z2Nat.id i) by lia. rewrite !GetTextureView_at_slot.
    rewrite Hwrite, list_lookup_insert_ne by lia. reflexivity.
Qed.

Lemma GetTextureView_after_slot_write_witness :
  GetTextureView (with_mip two_level_object (<[3%nat := rebound_pass]> (m_mip two_level_object))) 3 =
    if decide (3 = Z.of_nat 3) then Returned (m_SRV rebound_pass)
    else GetTextureView two_level_object 3.
Proof.
  apply (GetTextureView_after_slot_write two_level_object
           (with_mip two_level_object (<[3%nat := rebound_pass]> (m_mip two_level_object)))
           3 rebound_pass 3).
  - reflexivity.
  - reflexivity.
  - vm_compute. reflexivity.
  - unfold PS_MAX_MIP_LEVELS. lia.
Defined.
